(** * The negative high-impact event detector of [step_neg_check]

    A shallow embedding of [step_neg_check/agents/negative_event_detector.py]
    and of the record handling of [step_neg_check/pipeline.py], followed by
    the properties of the classifier.

    Text.  A Python [str] is modelled by a Rocq [string] whose characters are
    the code points U+0000 .. U+00FF: the character ["223"%char] is U+00DF
    (sharp s), not a byte of an encoding.  On this range [str.lower] maps a
    string to a string of the same range, character by character, so it is
    modelled exactly.  Every literal of the source is ASCII.

    Numbers.  The weights are the floats 1.5, 2.0, 2.5, 3.0 and 3.5 and a
    score is a sum of at most fourteen of them: every such sum is a multiple
    of 0.5 below 64, which binary floating point represents and adds without
    rounding.  Scores are therefore modelled as rationals ([Q]). *)

From Stdlib Require Import String Ascii List Bool Arith NArith QArith Lia Lqa.
From stdpp Require Import gmap strings.
Import ListNotations.

Local Open Scope string_scope.
Local Open Scope list_scope.

(** ** Python strings *)

Module PyStr.

Definition code (c : ascii) : N := N_of_ascii c.

Definition in_range (lo hi : N) (c : ascii) : bool :=
  ((lo <=? code c) && (code c <=? hi))%N.

(** The characters of U+0000 .. U+00FF that [str.lower] changes: A-Z and
    U+00C0 .. U+00DE except the multiplication sign U+00D7. *)
Definition is_upper (c : ascii) : bool :=
  in_range 65 90 c || (in_range 192 222 c && negb (code c =? 215)%N).

Definition lower_char (c : ascii) : ascii :=
  if is_upper c then ascii_of_N (code c + 32) else c.

(** [s.lower()] *)
Fixpoint lower (s : string) : string :=
  match s with
  | EmptyString => EmptyString
  | String c s' => String (lower_char c) (lower s')
  end.

(** The characters that [str.upper] changes and keeps in one character of
    the range: a-z and U+00E0 .. U+00FE except the division sign U+00F7. *)
Definition is_lower_paired (c : ascii) : bool :=
  in_range 97 122 c || (in_range 224 254 c && negb (code c =? 247)%N).

(** [c.upper()] for one character [c].  The sharp s U+00DF becomes the two
    characters "SS".  The micro sign U+00B5 and y with diaeresis U+00FF have
    upper-case forms above U+00FF, which a [string] here cannot hold: [None]. *)
Definition upper_form (c : ascii) : option string :=
  if is_lower_paired c then Some (String (ascii_of_N (code c - 32)) EmptyString)
  else if (code c =? 223)%N then Some "SS"
  else if (code c =? 181)%N || (code c =? 255)%N then None
  else Some (String c EmptyString).

(** [needle in hay]: [needle] occurs in [hay] as a contiguous run of
    characters. *)
Fixpoint contains (needle hay : string) : bool :=
  String.prefix needle hay ||
  match hay with
  | EmptyString => false
  | String _ hay' => contains needle hay'
  end.

(** The regular-expression class [\w] on [str] patterns: alphanumeric
    characters and the underscore. *)
Definition is_word (c : ascii) : bool :=
  in_range 48 57 c || in_range 65 90 c || (code c =? 95)%N || in_range 97 122 c
  || (code c =? 170)%N || (code c =? 178)%N || (code c =? 179)%N
  || (code c =? 181)%N || (code c =? 185)%N || (code c =? 186)%N
  || in_range 188 190 c
  || in_range 192 214 c || in_range 216 246 c || in_range 248 255 c.

(** The regular-expression class [\s] on [str] patterns. *)
Definition is_space (c : ascii) : bool :=
  in_range 9 13 c || in_range 28 32 c || (code c =? 133)%N || (code c =? 160)%N.

End PyStr.

(** ** The fragment of Python's [re] that the detector's patterns use

    The patterns are built from literal text, alternation [a|b], sequence,
    the word boundary [\b], [\s+], the optional group [(r)?] and the
    negative lookahead [(?!r)].  Groups only delimit alternations here.
    Every call of the source passes [re.IGNORECASE]. *)

Module Regex.

Import PyStr.

Inductive regex : Type :=
| Lit (w : string)
| Alt (r1 r2 : regex)
| Seq (r1 r2 : regex)
| WordB
| Spaces
| Opt (r : regex)
| NegLook (r : regex).

(** A position in the subject: the character just before it, when there is
    one, and the text from it on. *)
Definition cursor : Type := option ascii * string.

Definition before (cur : cursor) : option ascii := fst cur.
Definition ahead (cur : cursor) : string := snd cur.

Definition first_char (s : string) : option ascii :=
  match s with
  | EmptyString => None
  | String c _ => Some c
  end.

Definition word_opt (o : option ascii) : bool :=
  match o with
  | Some c => is_word c
  | None => false
  end.

(** [\b]: exactly one of the two neighbours of the position is a word
    character; the ends of the subject count as non-word. *)
Definition at_boundary (cur : cursor) : bool :=
  xorb (word_opt (before cur)) (word_opt (first_char (ahead cur))).

(** A literal character under [re.IGNORECASE]. *)
Definition ci_eq (p c : ascii) : bool :=
  Ascii.eqb (lower_char c) (lower_char p).

Fixpoint lit (w : string) (p : option ascii) (s : string) : option cursor :=
  match w with
  | EmptyString => Some (p, s)
  | String a w' =>
      match s with
      | String c s' => if ci_eq a c then lit w' (Some c) s' else None
      | EmptyString => None
      end
  end.

(** The rest of a greedy [\s+] once one space is taken: as many more as
    possible, giving them back one at a time while what follows fails. *)
Fixpoint spaces_more (p : option ascii) (s : string)
    (k : cursor -> option cursor) : option cursor :=
  match s with
  | String c s' =>
      if is_space c then
        match spaces_more (Some c) s' k with
        | Some e => Some e
        | None => k (p, s)
        end
      else k (p, s)
  | EmptyString => k (p, s)
  end.

(** The backtracking matcher.  [k] is what must still match after [r]; the
    result is the end of the first complete match in the engine's order of
    trial (left alternative first, longest repetition first). *)
Fixpoint rmatch (r : regex) (cur : cursor)
    (k : cursor -> option cursor) : option cursor :=
  match r with
  | Lit w =>
      match lit w (before cur) (ahead cur) with
      | Some cur' => k cur'
      | None => None
      end
  | Alt r1 r2 =>
      match rmatch r1 cur k with
      | Some e => Some e
      | None => rmatch r2 cur k
      end
  | Seq r1 r2 => rmatch r1 cur (fun cur' => rmatch r2 cur' k)
  | WordB => if at_boundary cur then k cur else None
  | Spaces =>
      match ahead cur with
      | String c s' => if is_space c then spaces_more (Some c) s' k else None
      | EmptyString => None
      end
  | Opt r1 =>
      match rmatch r1 cur k with
      | Some e => Some e
      | None => k cur
      end
  | NegLook r1 =>
      match rmatch r1 cur Some with
      | Some _ => None
      | None => k cur
      end
  end.

(** The end of the match of [r] that starts at [cur], if there is one. *)
Definition match_at (r : regex) (cur : cursor) : option cursor :=
  rmatch r cur Some.

(** [re.search(r, s, re.IGNORECASE)] as a truth value, scanning from a
    position on. *)
Fixpoint search_from (r : regex) (p : option ascii) (s : string) : bool :=
  match match_at r (p, s) with
  | Some _ => true
  | None =>
      match s with
      | String c s' => search_from r (Some c) s'
      | EmptyString => false
      end
  end.

Definition search (r : regex) (s : string) : bool := search_from r None s.

(** The scan of [re.findall]: the matches found from left to right, each
    search resuming where the previous match ended.  [skip] counts the
    positions still inside the previous match.  The result lists the
    matched texts; Python lists the groups of each match instead, one entry
    per match all the same.  No pattern of the detector matches the empty
    text, so the end of the subject is not probed. *)
Fixpoint findall_from (r : regex) (p : option ascii) (s : string)
    (skip : nat) : list string :=
  match s with
  | EmptyString => []
  | String c s' =>
      match skip with
      | S n => findall_from r (Some c) s' n
      | O =>
          match match_at r (p, s) with
          | Some e =>
              let n := String.length s - String.length (ahead e) in
              substring 0 n s :: findall_from r (Some c) s' (n - 1)
          | None => findall_from r (Some c) s' 0
          end
      end
  end.

Definition findall (r : regex) (s : string) : list string :=
  findall_from r None s 0.

(** [(w1|w2|...)] *)
Fixpoint words (w : string) (ws : list string) : regex :=
  match ws with
  | [] => Lit w
  | w' :: ws' => Alt (Lit w) (words w' ws')
  end.

(** [\b(w1|w2|...)\b] *)
Definition bounded (w : string) (ws : list string) : regex :=
  Seq WordB (Seq (words w ws) WordB).

End Regex.

(** ** The detector: [NegativeEventDetector] *)

Module Detector.

Import PyStr Regex.

(** [EventContext] *)
Record EventContext : Type := {
  title : string;
  content : string;
  country : option string;
  is_confirmed : bool;
  has_material_impact : bool
}.

(** [TARGET_COUNTRIES].  The source holds a set; the only use is a loop that
    answers whether some element occurs in the text. *)
Definition TARGET_COUNTRIES : list string :=
  [ "indonesia"; "china"; "vietnam"; "cambodia"; "laos";
    "indonesian"; "chinese"; "vietnamese"; "cambodian"; "laotian";
    "jakarta"; "beijing"; "hanoi"; "phnom penh"; "vientiane" ].

(** One entry of [CRITERIA_KEYWORDS]: the key and the two fields of its
    value. *)
Record criterion_config : Type := {
  cfg_name : string;
  keywords : list string;
  weight : Q
}.

(** [CRITERIA_KEYWORDS], in the order of the dict. *)
Definition CRITERIA_KEYWORDS : list criterion_config :=
  [ {| cfg_name := "production_disruption";
       keywords :=
         [ "factory shutdown"; "factory shutdowns"; "plant closure"; "production halt";
           "manufacturing disruption"; "supply chain disruption";
           "port closure"; "port shutdown"; "port closed";
           "shipping disruption"; "shipping halted";
           "logistics disruption"; "airport closure"; "energy crisis";
           "power outage"; "blackout"; "labor strike"; "worker strike";
           "mass strike"; "industrial action"; "work stoppage";
           "factory fire"; "explosion at"; "production suspended";
           "operations halted"; "supply shortage"; "supply cut";
           "disruption confirmed"; "shutdown confirmed";
           "strike began"; "workers' strike"; "announced shutdowns" ];
       weight := 3.0 |};
    {| cfg_name := "corporate_distress";
       keywords :=
         [ "bankruptcy"; "bankrupt"; "default"; "defaults on";
           "insolvency"; "insolvent"; "debt restructuring";
           "credit downgrade"; "rating downgrade"; "downgraded to";
           "liquidity crisis"; "cash crisis"; "unable to pay";
           "filed for bankruptcy"; "chapter 11"; "creditors meeting";
           "debt default confirmed"; "restructuring confirmed" ];
       weight := 3.0 |};
    {| cfg_name := "sovereign_stress";
       keywords :=
         [ "sovereign default"; "sovereign downgrade";
           "country downgrade"; "national default";
           "imf bailout"; "imf program"; "imf loan";
           "emergency bailout"; "capital controls"; "capital flight";
           "bank run"; "banking crisis"; "bank collapse";
           "interbank freeze"; "financial system collapse";
           "currency crisis"; "currency devaluation";
           "foreign reserves depleted"; "sovereign debt crisis" ];
       weight := 3.5 |};
    {| cfg_name := "trade_restrictions";
       keywords :=
         [ "tariff imposed"; "tariff increase"; "new tariffs";
           "export ban"; "import ban"; "trade ban";
           "sanctions imposed"; "sanctions announced";
           "trade barriers"; "market access denied";
           "trade restrictions"; "embargo"; "export restrictions";
           "import restrictions"; "trade war"; "retaliatory tariffs" ];
       weight := 3.0 |};
    {| cfg_name := "regulatory_political_shock";
       keywords :=
         [ "nationalization"; "nationalised"; "nationalized";
           "asset seizure"; "assets seized"; "expropriation";
           "industry ban"; "sector ban"; "regulatory crackdown";
           "government crackdown"; "forced shutdown";
           "political crisis"; "government collapse";
           "leadership removed"; "president removed"; "prime minister removed";
           "coup"; "military takeover"; "state of emergency declared";
           "institution dissolved"; "parliament dissolved" ];
       weight := 3.5 |};
    {| cfg_name := "capital_withdrawal";
       keywords :=
         [ "business closure"; "company exit"; "market exit";
           "withdrawal from market"; "pulling out"; "exiting country";
           "capital flight"; "foreign investment withdrawn";
           "operations relocated"; "factory relocated";
           "mass layoffs"; "workforce reduction";
           "hiring freeze"; "investment cancelled";
           "project cancelled"; "expansion cancelled";
           "shutdown announced"; "closure confirmed" ];
       weight := 2.5 |};
    {| cfg_name := "demand_contraction";
       keywords :=
         [ "demand collapse"; "demand fell"; "demand dropped";
           "consumer spending fell"; "consumer spending declined";
           "exports declined"; "exports fell"; "exports dropped";
           "industrial demand fell"; "b2b transactions declined";
           "sales plummeted"; "orders cancelled"; "order backlog";
           "sustained decline"; "continued contraction";
           "recession"; "economic contraction"; "quarter of contraction" ];
       weight := 2.5 |};
    {| cfg_name := "natural_disaster";
       keywords :=
         [ "earthquake"; "typhoon"; "hurricane"; "cyclone";
           "flood"; "flooding"; "major fire"; "wildfire";
           "epidemic"; "pandemic"; "disease outbreak";
           "drought"; "landslide"; "tsunami"; "volcanic eruption";
           "death toll"; "casualties reported"; "evacuation ordered";
           "disaster zone"; "state of emergency"; "emergency declared" ];
       weight := 2.5 |};
    {| cfg_name := "infrastructure_failure";
       keywords :=
         [ "power grid failure"; "grid collapse"; "blackout";
           "port shutdown"; "port closed"; "port disruption";
           "telecommunications outage"; "network failure";
           "payment system down"; "banking system down";
           "cyberattack"; "cyber attack"; "ransomware";
           "transport system failure"; "rail disruption";
           "air traffic halted"; "infrastructure failure" ];
       weight := 3.0 |};
    {| cfg_name := "corporate_outlook_cuts";
       keywords :=
         [ "negative outlook"; "outlook cut"; "profit warning";
           "earnings warning"; "guidance cut"; "lowered forecast";
           "capex cut"; "capital expenditure cut"; "investment cut";
           "project cancelled"; "expansion cancelled";
           "hiring freeze"; "job cuts"; "layoffs announced";
           "restructuring announced"; "cost cutting" ];
       weight := 2.0 |};
    {| cfg_name := "fiscal_tightening";
       keywords :=
         [ "stimulus ended"; "stimulus withdrawn"; "support ended";
           "subsidy cut"; "subsidy removed"; "subsidy expired";
           "new tax"; "tax increase"; "tax hike";
           "austerity measures"; "spending cuts"; "budget cuts";
           "fiscal tightening"; "government spending cut" ];
       weight := 2.5 |};
    {| cfg_name := "market_instability";
       keywords :=
         [ "market crash"; "stock market plunge"; "stocks tumble";
           "index fell"; "market volatility"; "sharp decline";
           "currency plunge"; "currency crash"; "exchange rate fall";
           "commodity crash"; "oil price crash"; "price collapse";
           "trading halted"; "circuit breaker"; "sell-off" ];
       weight := 2.0 |};
    {| cfg_name := "geopolitical_escalation";
       keywords :=
         [ "military conflict"; "armed conflict"; "border clash";
           "military confrontation"; "maritime blockade";
           "naval blockade"; "civil unrest"; "riots"; "protests turn violent";
           "state of emergency declared"; "mobilization";
           "troops deployed"; "military action"; "escalation confirmed" ];
       weight := 3.5 |};
    {| cfg_name := "structural_escalation";
       keywords :=
         [ "first time"; "unprecedented"; "never before";
           "record high"; "record low"; "worst since";
           "sharpest decline"; "largest drop"; "historic";
           "all-time"; "exceptional"; "extraordinary measures" ];
       weight := 1.5 |} ].

(** The words that start a warning or an advisory. *)
Definition warning_words : regex :=
  words "warns" ["warning"; "caution"; "advisory"; "alert"].

(** What the lookahead of the warning family refuses to see next:
    [\s+(of\s+)?(confirmed|announced|declared)]. *)
Definition warning_exemption : regex :=
  Seq Spaces
      (Seq (Opt (Seq (Lit "of") Spaces))
           (words "confirmed" ["announced"; "declared"])).

(** [\b(warns|warning|caution|advisory|alert)\b(?!...)] *)
Definition warning_pattern : regex :=
  Seq WordB (Seq warning_words (Seq WordB (NegLook warning_exemption))).

(** [EXCLUSION_PATTERNS] *)
Definition EXCLUSION_PATTERNS : list regex :=
  [ bounded "may"
      [ "might"; "could"; "would"; "should"; "potentially"; "possibly";
        "expected"; "forecast"; "projected"; "predicted"; "anticipated";
        "likely"; "rumored"; "speculated" ];
    bounded "proposal"
      [ "proposed"; "draft"; "plan to"; "considering"; "discussing";
        "negotiating"; "talks about" ];
    bounded "if"
      [ "whether"; "whether or not"; "in case"; "hypothetical"; "scenario" ];
    bounded "risk of"
      [ "threat of"; "concern about"; "fear of"; "worry about" ];
    warning_pattern ].

(** [CONFIRMATION_PATTERNS] *)
Definition CONFIRMATION_PATTERNS : list regex :=
  [ bounded "confirmed"
      [ "announced"; "declared"; "official"; "finalized"; "completed";
        "executed"; "implemented" ];
    bounded "has occurred" [ "occurred on"; "took place"; "happened" ];
    bounded "reported that" [ "stated that"; "announced that" ] ].

(** The local list [past_tense_indicators] of [_check_confirmed_outcome]. *)
Definition past_tense_indicators : list regex :=
  [ bounded "shut down"
      [ "closed"; "collapsed"; "defaulted"; "filed"; "declared"; "announced";
        "implemented"; "imposed"; "occurred"; "happened" ];
    bounded "has shut"
      [ "has closed"; "has collapsed"; "has defaulted"; "has filed" ];
    Seq WordB
      (Seq (words "has been" ["were"])
         (Seq Spaces
            (Seq (words "shut"
                    [ "closed"; "destroyed"; "damaged"; "cancelled"; "halted";
                      "stopped" ])
                 WordB)));
    Seq WordB
      (Seq (Lit "operations")
         (Seq Spaces (Seq (words "halted" ["stopped"; "suspended"]) WordB))) ].

(** The local list [disaster_indicators] of [_check_confirmed_outcome]. *)
Definition disaster_indicators : list string :=
  [ "earthquake struck"; "typhoon hit"; "flood hit"; "fire destroyed";
    "killed"; "died"; "injured"; "evacuated"; "destroyed" ].

(** [for x in xs: if test(x): return True] followed by [return False]; also
    the loops that set a flag and [break]. *)
Fixpoint any_of {A : Type} (test : A -> bool) (xs : list A) : bool :=
  match xs with
  | [] => false
  | x :: xs' => if test x then true else any_of test xs'
  end.

Definition _check_geographic_requirement (text : string) : bool :=
  let text_lower := lower text in
  any_of (fun country => contains country text_lower) TARGET_COUNTRIES.

(** The three loops each set [has_confirmation] and leave on the first hit;
    a later loop runs whatever the earlier ones found. *)
Definition _check_confirmed_outcome (text : string) : bool :=
  let has_confirmation := false in
  let has_confirmation :=
    if any_of (fun pattern => search pattern text) CONFIRMATION_PATTERNS
    then true else has_confirmation in
  let has_confirmation :=
    if any_of (fun pattern => search pattern text) past_tense_indicators
    then true else has_confirmation in
  let has_confirmation :=
    if any_of (fun indicator => contains indicator (lower text)) disaster_indicators
    then true else has_confirmation in
  has_confirmation.

(** The counting loop of [_check_exclusion_patterns]. *)
Definition exclusion_count (text : string) : nat :=
  fold_left (fun count pattern => count + List.length (findall pattern text))
            EXCLUSION_PATTERNS 0.

Definition _check_exclusion_patterns (text : string) : bool :=
  (3 <=? exclusion_count text)%nat.

(** The inner loop of [_evaluate_criteria]: the weight is added at the
    first keyword found and the loop is left. *)
Fixpoint add_on_first_hit (kws : list string) (text_lower : string)
    (w total_score : Q) : Q :=
  match kws with
  | [] => total_score
  | keyword :: kws' =>
      if contains keyword text_lower then (total_score + w)%Q
      else add_on_first_hit kws' text_lower w total_score
  end.

Definition _evaluate_criteria (text : string) : Q :=
  let text_lower := lower text in
  fold_left
    (fun total_score config =>
       add_on_first_hit (keywords config) text_lower (weight config) total_score)
    CRITERIA_KEYWORDS 0.0%Q.

(** The qualification threshold of [detect]. *)
Definition THRESHOLD : Q := 2.0.

(** *** [detect], with the record of the stages it runs

    Each stage is a call; [Traced] pairs a value with the calls made to
    obtain it, in order, so that what a run of [detect] evaluates can be
    stated. *)

Inductive stage : Type :=
| Geographic
| Confirmation
| Exclusion
| Scoring.

Definition Traced (A : Type) : Type := list stage * A.

Definition ret {A : Type} (a : A) : Traced A := ([], a).

Definition bind {A B : Type} (m : Traced A) (f : A -> Traced B) : Traced B :=
  let r := f (snd m) in (fst m ++ fst r, snd r).

Definition call {A : Type} (s : stage) (a : A) : Traced A := ([s], a).

Notation "x <- m ;; f" := (bind m (fun x => f))
  (at level 100, m at next level, right associativity).

Definition detect_run (event : EventContext) : Traced string :=
  let text := lower (title event ++ " " ++ content event) in
  geo <- call Geographic (_check_geographic_requirement text) ;;
  if negb geo then ret "no" else
  conf <- call Confirmation (_check_confirmed_outcome text) ;;
  if negb conf then ret "no" else
  excl <- call Exclusion (_check_exclusion_patterns text) ;;
  if excl then ret "no" else
  criteria_score <- call Scoring (_evaluate_criteria text) ;;
  if Qle_bool THRESHOLD criteria_score then ret "yes" else ret "no".

Definition detect (event : EventContext) : string := snd (detect_run event).

Definition detect_from_text (title content : string) : string :=
  detect {| title := title; content := content; country := None;
            is_confirmed := false; has_material_impact := false |}.

(** One element of [criteria_matches]. *)
Record criteria_match : Type := {
  criterion : string;
  matched_keywords : list string;
  matched_weight : Q
}.

(** The dict that [get_detailed_analysis] returns. *)
Record analysis : Type := {
  result : string;
  geographic_match : bool;
  confirmed_outcome : bool;
  excluded : bool;
  criteria_matches : list criteria_match;
  total_score : Q
}.

(** The body of the loop over [CRITERIA_KEYWORDS] in
    [get_detailed_analysis]; the state is [matched_criteria] and
    [total_score]. *)
Definition analyse_criterion (text : string)
    (st : list criteria_match * Q) (config : criterion_config)
    : list criteria_match * Q :=
  let matched := List.filter (fun keyword => contains keyword text) (keywords config) in
  match matched with
  | [] => st
  | _ :: _ =>
      (fst st ++ [ {| criterion := cfg_name config;
                      matched_keywords := firstn 3 matched;
                      matched_weight := weight config |} ],
       (snd st + weight config)%Q)
  end.

Definition get_detailed_analysis (title content : string) : analysis :=
  let text := lower (title ++ " " ++ content) in
  let st := fold_left (analyse_criterion text) CRITERIA_KEYWORDS ([], 0.0%Q) in
  {| result := detect_from_text title content;
     geographic_match := _check_geographic_requirement text;
     confirmed_outcome := _check_confirmed_outcome text;
     excluded := _check_exclusion_patterns text;
     criteria_matches := fst st;
     total_score := snd st |}.

End Detector.

(** ** The record handling of [pipeline.py] *)

Module Pipeline.

Import Detector.

(** [event.get(key, '')] on a record whose fields hold strings. *)
Definition get (event : gmap string string) (key : string) : string :=
  default "" (event !! key).

(** [a or b] on strings: [a] unless it is empty. *)
Definition py_or (a b : string) : string :=
  match a with
  | EmptyString => b
  | String _ _ => a
  end.

Definition event_title (event : gmap string string) : string :=
  get event "title".

Definition event_content (event : gmap string string) : string :=
  py_or (py_or (get event "content") (get event "description"))
        (get event "summary").

(** The body of the loop of [process_json_file]; [now] stands for
    [datetime.now().isoformat()]. *)
Definition process_event (now : string) (event : gmap string string)
    : gmap string string :=
  let result := detect_from_text (event_title event) (event_content event) in
  <["processed_at" := now]> (<["negative_high_impact" := result]> event).

End Pipeline.

(** ** What the properties are stated with *)

Module Spec.

Import PyStr Regex Detector.

(** [kw] occurs in [text] as a literal substring. *)
Definition occurs_in (kw text : string) : Prop :=
  exists l r : string, text = l +:+ kw +:+ r.

(** Some keyword of the category occurs in the text. *)
Definition category_hit (text : string) (config : criterion_config) : bool :=
  existsb (fun keyword => contains keyword text) (keywords config).

(** The weight of each category counted once when the category is hit. *)
Fixpoint weighted_sum (text : string) (table : list criterion_config) : Q :=
  match table with
  | [] => 0
  | config :: table' =>
      ((if category_hit text config then weight config else 0)
       + weighted_sum text table')%Q
  end.

(** The names and weights of the fourteen categories. *)
Definition listed_weights : list (string * Q) :=
  [ ("production_disruption", 3.0%Q); ("corporate_distress", 3.0%Q);
    ("sovereign_stress", 3.5%Q); ("trade_restrictions", 3.0%Q);
    ("regulatory_political_shock", 3.5%Q); ("capital_withdrawal", 2.5%Q);
    ("demand_contraction", 2.5%Q); ("natural_disaster", 2.5%Q);
    ("infrastructure_failure", 3.0%Q); ("corporate_outlook_cuts", 2.0%Q);
    ("fiscal_tightening", 2.5%Q); ("market_instability", 2.0%Q);
    ("geopolitical_escalation", 3.5%Q); ("structural_escalation", 1.5%Q) ].

(** The number of matches of all exclusion families together. *)
Definition total_matches (text : string) : nat :=
  list_sum (map (fun pattern => List.length (findall pattern text))
                EXCLUSION_PATTERNS).

(** *** Case transformations *)

(** [t] is [s] with each character replaced by its lower-case form or by
    its upper-case form. *)
Inductive case_variant : string -> string -> Prop :=
| cv_nil : case_variant EmptyString EmptyString
| cv_lower (c : ascii) (s t : string) :
    case_variant s t -> case_variant (String c s) (String (lower_char c) t)
| cv_upper (c : ascii) (u s t : string) :
    upper_form c = Some u ->
    case_variant s t -> case_variant (String c s) (u +:+ t).


Fixpoint all_chars (test : ascii -> bool) (s : string) : bool :=
  match s with
  | EmptyString => true
  | String c s' => test c && all_chars test s'
  end.


(** *** What a pattern matches, without an order of trial *)















(** *** Inputs of the examples *)

(** The eighth case of [test_detector.py]. *)
Definition port_title : string := "Port of Jakarta confirmed closed due to strike".

Definition port_content : string :=
  "The Port of Jakarta has been confirmed closed after a massive workers' strike began on Monday. All shipping operations have been halted indefinitely.".



End Spec.

(** ** The batch loop, the summary and the line mode of [pipeline.py] *)

Module Batch.

Import PyStr Detector Pipeline.

(** [process_single_event] *)
Definition process_single_event (title content : string) : string :=
  detect_from_text title content.

(** The loop of [process_json_file] from the [i]-th record on: results are
    appended in the order of the records; [clock i] stands for what
    [datetime.now().isoformat()] gives while the [i]-th record is
    processed. *)
Fixpoint process_events (clock : nat -> string) (i : nat)
    (events : list (gmap string string)) : list (gmap string string) :=
  match events with
  | [] => []
  | event :: events' =>
      process_event (clock i) event :: process_events clock (S i) events'
  end.

(** [process_json_file], between reading the records and writing the
    results. *)
Definition process_json_file (clock : nat -> string)
    (events : list (gmap string string)) : list (gmap string string) :=
  process_events clock 0 events.

(** [sum(1 for r in results if r['negative_high_impact'] == 'yes')] of
    [main]; [None] stands for the [KeyError] of a record without the key. *)
Fixpoint positive_count (results : list (gmap string string)) : option nat :=
  match results with
  | [] => Some 0
  | r :: results' =>
      match r !! "negative_high_impact" with
      | None => None
      | Some verdict =>
          match positive_count results' with
          | None => None
          | Some n => Some (if String.eqb verdict "yes" then S n else n)
          end
      end
  end.

(** The three numbers that [main] prints after a batch: processed,
    negative high-impact, not qualifying. *)
Definition summary (results : list (gmap string string))
    : option (nat * nat * nat) :=
  match positive_count results with
  | None => None
  | Some positive =>
      Some (List.length results, positive, List.length results - positive)
  end.

(** [s.lstrip()] *)
Fixpoint lstrip (s : string) : string :=
  match s with
  | EmptyString => EmptyString
  | String c s' => if is_space c then lstrip s' else s
  end.

(** [s.rstrip()] *)
Fixpoint rstrip (s : string) : string :=
  match s with
  | EmptyString => EmptyString
  | String c s' =>
      match rstrip s' with
      | EmptyString => if is_space c then EmptyString else String c EmptyString
      | String _ _ as t => String c t
      end
  end.

(** [s.strip()] *)
Definition strip (s : string) : string := rstrip (lstrip s).

(** The line feed, U+000A. *)
Definition newline : ascii := "010"%char.

(** [s.split('\n')]: the pieces between line feeds; never an empty list. *)
Fixpoint split_lines (s : string) : list string :=
  match s with
  | EmptyString => [EmptyString]
  | String c s' =>
      if Ascii.eqb c newline then EmptyString :: split_lines s'
      else
        match split_lines s' with
        | piece :: pieces => String c piece :: pieces
        | [] => [String c EmptyString]
        end
  end.

(** ['\n'.join(pieces)] *)
Fixpoint join_lines (pieces : list string) : string :=
  match pieces with
  | [] => EmptyString
  | piece :: pieces' =>
      match pieces' with
      | [] => piece
      | _ :: _ => piece +:+ String newline (join_lines pieces')
      end
  end.

(** What [json.loads] does with a line: it raises [JSONDecodeError]; or it
    raises another exception ([ValueError] for a number of more digits than
    the integer conversion limit, [RecursionError] for nesting deeper than
    the interpreter's stack); or it gives an object, here with string
    fields; or it gives a value that is not an object (a number, a string,
    a list, [null]). *)
Inductive json_outcome : Type :=
| JSONDecodeError
| JOtherError
| JObject (data : gmap string string)
| JOther.

(** How a call of [process_stdin] ends: it returns a verdict; or the
    [data.get] of a value that is no object raises [AttributeError]; or
    the exception of [json.loads] that is no [JSONDecodeError] passes
    through.  Nothing in [process_stdin] catches the last two. *)
Inductive outcome : Type :=
| Returned (verdict : string)
| AttributeError
| LoadsError.

(** [process_stdin], on the text read from standard input; [json_loads]
    stands for [json.loads]. *)
Definition process_stdin (json_loads : string -> json_outcome)
    (stdin : string) : outcome :=
  let lines := split_lines (strip stdin) in
  if (2 <=? List.length lines)%nat then
    let title := nth 0 lines EmptyString in
    let content := join_lines (skipn 1 lines) in
    Returned (detect_from_text title content)
  else if (List.length lines =? 1)%nat then
    match json_loads (nth 0 lines EmptyString) with
    | JObject data =>
        let title := get data "title" in
        let content := py_or (get data "content") (get data "description") in
        Returned (detect_from_text title content)
    | JOther => AttributeError
    | JSONDecodeError =>
        Returned (detect_from_text (nth 0 lines EmptyString) EmptyString)
    | JOtherError => LoadsError
    end
  else Returned "no".

End Batch.

(** ** The cases of [test_detector.py] *)

Module Tests.

Import Detector.

Record test_case : Type := {
  test_title : string;
  test_content : string;
  expected : string
}.

Definition test_cases : list test_case :=
  [ {| test_title := "Major earthquake hits Indonesia, killing hundreds";
       test_content := "A powerful 7.5 magnitude earthquake struck Sulawesi, Indonesia on Friday, killing at least 400 people and destroying thousands of homes. The government has declared a state of emergency.";
       expected := "yes" |};
    {| test_title := "Company considers potential layoffs next year";
       test_content := "PT Manufacturing is considering the possibility of reducing its workforce next year if market conditions do not improve.";
       expected := "no" |};
    {| test_title := "Vietnam factory shuts down after confirmed bankruptcy";
       test_content := "Samsung's supplier in Vietnam has confirmed the closure of its factory after filing for bankruptcy. 5,000 workers have been laid off.";
       expected := "yes" |};
    {| test_title := "Analysts predict China economic growth may slow";
       test_content := "Economic analysts predict that China's growth may slow down in the coming quarters due to various factors.";
       expected := "no" |};
    {| test_title := "Cambodia announces tariff increase on imports";
       test_content := "The Cambodian government has officially announced a 25% tariff increase on all imported electronics, effective immediately.";
       expected := "yes" |};
    {| test_title := "Laos banking system faces liquidity crisis";
       test_content := "The Central Bank of Laos has confirmed a severe liquidity crisis affecting multiple commercial banks. Emergency measures have been implemented.";
       expected := "yes" |};
    {| test_title := "New proposal discussed for infrastructure investment";
       test_content := "Government officials are discussing a new proposal for infrastructure investment that could potentially benefit the economy.";
       expected := "no" |};
    {| test_title := "Port of Jakarta confirmed closed due to strike";
       test_content := "The Port of Jakarta has been confirmed closed after a massive workers' strike began on Monday. All shipping operations have been halted indefinitely.";
       expected := "yes" |};
    {| test_title := "Company reports quarterly earnings";
       test_content := "PT Telekom reported its quarterly earnings today, showing steady performance in line with expectations.";
       expected := "no" |};
    {| test_title := "Indonesia imposes export ban on raw nickel ore";
       test_content := "The Indonesian government has officially implemented an export ban on raw nickel ore, effective January 1st. The policy has been confirmed and finalized.";
       expected := "yes" |} ].

(** The loop of [run_tests]: the numbers of passed and failed cases. *)
Definition count_results (cases : list test_case) : nat * nat :=
  fold_left
    (fun counts test =>
       let result := detect_from_text (test_title test) (test_content test) in
       if String.eqb result (expected test)
       then (S (fst counts), snd counts)
       else (fst counts, S (snd counts)))
    cases (0, 0).

(** [run_tests]: whether no case failed. *)
Definition run_tests : bool := (snd (count_results test_cases) =? 0)%nat.

End Tests.

(** ** What the further properties are stated with *)

Module Cover.

Import PyStr Regex Detector Spec Pipeline.

(** A position of the lower-cased subject. *)
Definition lower_cursor (cur : cursor) : cursor :=
  (option_map lower_char (before cur), lower (ahead cur)).

(** The sum of all weights of a table. *)
Fixpoint total_weight (table : list criterion_config) : Q :=
  match table with
  | [] => 0
  | config :: table' => (weight config + total_weight table')%Q
  end.

(** The sum of the weights of the entries with the given name. *)
Fixpoint named_weight (name : string) (table : list criterion_config) : Q :=
  match table with
  | [] => 0
  | config :: table' =>
      ((if String.eqb (cfg_name config) name then weight config else 0)
       + named_weight name table')%Q
  end.

(** The sum of the weights of the entries that list the keyword. *)
Fixpoint listing_weight (keyword : string) (table : list criterion_config) : Q :=
  match table with
  | [] => 0
  | config :: table' =>
      ((if existsb (String.eqb keyword) (keywords config)
        then weight config else 0)
       + listing_weight keyword table')%Q
  end.

(** The sum of the weights listed by a detailed analysis. *)
Fixpoint listed_total (entries : list criteria_match) : Q :=
  match entries with
  | [] => 0
  | m :: entries' => (matched_weight m + listed_total entries')%Q
  end.


(** The number of records, among the events, that [detect_from_text]
    answers with the given verdict. *)
Definition verdict_count (verdict : string)
    (events : list (gmap string string)) : nat :=
  List.length
    (List.filter
       (fun event =>
          String.eqb (detect_from_text (event_title event) (event_content event))
                     verdict)
       events).








(** An entry of a detailed analysis is the entry of some category of the
    table: it carries the name and the weight of the category, and shows at
    least one keyword, each listed by the category and occurring in the
    text. *)
Definition entry_of_table (table : list criterion_config) (text : string)
    (m : criteria_match) : Prop :=
  exists config : criterion_config,
    In config table /\
    criterion m = cfg_name config /\
    matched_weight m = weight config /\
    matched_keywords m <> [] /\
    forall keyword : string,
      In keyword (matched_keywords m) ->
      In keyword (keywords config) /\ occurs_in keyword text.

(** No line feed in the text. *)
Definition one_line (s : string) : Prop :=
  all_chars (fun c => negb (Ascii.eqb c Batch.newline)) s = true.

End Cover.

(** ** Strings *)

Section StringFacts.

Import PyStr.


Lemma append_cons (x : ascii) (a b : string) :
  String x a +:+ b = String x (a +:+ b).
Proof. reflexivity. Qed.

Lemma lower_char_idem (c : ascii) : lower_char (lower_char c) = lower_char c.
Proof. destruct c as [[] [] [] [] [] [] [] []]; reflexivity. Qed.

Lemma lower_idem (s : string) : lower (lower s) = lower s.
Proof.
  induction s as [|c s IH]; simpl; [reflexivity|].
  now rewrite lower_char_idem, IH.
Qed.

Lemma lower_app (s t : string) : lower (s +:+ t) = lower s +:+ lower t.
Proof.
  induction s as [|c s IH]; [reflexivity|].
  rewrite append_cons. simpl. now rewrite append_cons, IH.
Qed.

Lemma app_assoc_str (a b c : string) : (a +:+ b) +:+ c = a +:+ (b +:+ c).
Proof.
  induction a as [|x a IH]; [reflexivity|].
  now rewrite !append_cons, IH.
Qed.

Lemma app_empty_r (a : string) : a +:+ EmptyString = a.
Proof.
  induction a as [|x a IH]; [reflexivity|].
  now rewrite append_cons, IH.
Qed.

Lemma prefix_split (n h : string) :
  String.prefix n h = true <-> exists r : string, h = n +:+ r.
Proof.
  revert h; induction n as [|a n IH]; intros h.
  - split; [intros _; now exists h | intros _; now destruct h].
  - destruct h as [|b h].
    + split; [discriminate | intros [r Hr]; discriminate].
    + simpl. destruct (Ascii.ascii_dec a b) as [->|Hne].
      * rewrite IH. split; intros [r Hr]; exists r.
        -- now rewrite append_cons, Hr.
        -- rewrite append_cons in Hr. now inversion Hr.
      * split; [discriminate|].
        intros [r Hr]. rewrite append_cons in Hr. inversion Hr. congruence.
Qed.

Lemma contains_nil (n : string) : contains n EmptyString = String.prefix n EmptyString.
Proof. unfold contains. apply orb_false_r. Qed.

Lemma contains_cons (n : string) (c : ascii) (h : string) :
  contains n (String c h) = String.prefix n (String c h) || contains n h.
Proof. reflexivity. Qed.

Lemma contains_occurs (n h : string) :
  contains n h = true <-> Spec.occurs_in n h.
Proof.
  unfold Spec.occurs_in. induction h as [|c h IH].
  - rewrite contains_nil, prefix_split. split.
    + intros [r Hr]. now exists EmptyString, r.
    + intros [l [r Hr]]. destruct l; [now exists r | discriminate].
  - rewrite contains_cons, orb_true_iff, prefix_split, IH. split.
    + intros [[r Hr] | [l [r Hr]]].
      * now exists EmptyString, r.
      * exists (String c l), r. now rewrite append_cons, Hr.
    + intros [l [r Hr]]. destruct l as [|c' l].
      * left. now exists r.
      * right. exists l, r. rewrite append_cons in Hr. now inversion Hr.
Qed.

End StringFacts.

(** ** The loops of the detector *)

Section Loops.

Import PyStr Regex Detector Spec.

Lemma any_of_existsb {A : Type} (test : A -> bool) (xs : list A) :
  any_of test xs = existsb test xs.
Proof.
  induction xs as [|x xs IH]; simpl; [reflexivity|].
  rewrite IH. now destruct (test x).
Qed.

Lemma any_of_true {A : Type} (test : A -> bool) (xs : list A) :
  any_of test xs = true <-> exists x : A, In x xs /\ test x = true.
Proof. rewrite any_of_existsb. apply existsb_exists. Qed.

Lemma any_of_false {A : Type} (test : A -> bool) (xs : list A) :
  any_of test xs = false <-> forall x : A, In x xs -> test x = false.
Proof.
  rewrite any_of_existsb. split.
  - intros H x Hx. destruct (test x) eqn:E; [|reflexivity].
    assert (existsb test xs = true) by (apply existsb_exists; eauto).
    congruence.
  - intros H. destruct (existsb test xs) eqn:E; [|reflexivity].
    apply existsb_exists in E as [x [Hx Ht]]. rewrite (H x Hx) in Ht. discriminate.
Qed.

(** The inner loop adds the weight exactly when some keyword occurs. *)
Lemma add_on_first_hit_once (kws : list string) (text : string) (w total : Q) :
  add_on_first_hit kws text w total =
  if existsb (fun keyword => contains keyword text) kws
  then (total + w)%Q else total.
Proof.
  induction kws as [|kw kws IH]; simpl; [reflexivity|].
  destruct (contains kw text); [reflexivity | exact IH].
Qed.

(** The filter of the detailed analysis is non-empty exactly when some
    keyword occurs. *)
Lemma filter_hit (kws : list string) (text : string) :
  match List.filter (fun keyword => contains keyword text) kws with
  | [] => existsb (fun keyword => contains keyword text) kws = false
  | _ :: _ => existsb (fun keyword => contains keyword text) kws = true
  end.
Proof.
  induction kws as [|kw kws IH]; simpl; [reflexivity|].
  destruct (contains kw text); simpl; [reflexivity | exact IH].
Qed.

(** The running total of [_evaluate_criteria] over any table. *)
Lemma score_loop_sum (text : string) (table : list criterion_config) (acc : Q) :
  (fold_left
     (fun total_score config =>
        add_on_first_hit (keywords config) text (weight config) total_score)
     table acc == acc + weighted_sum text table)%Q.
Proof.
  revert acc; induction table as [|config table IH]; intros acc; simpl.
  - now rewrite Qplus_0_r.
  - rewrite IH, add_on_first_hit_once. unfold category_hit.
    destruct (existsb _ (keywords config)).
    + now rewrite Qplus_assoc.
    + now rewrite Qplus_0_l.
Qed.

(** The two loops over the table keep the same running total. *)
Lemma analysis_loop_total (text : string) (table : list criterion_config)
    (st : list criteria_match * Q) :
  snd (fold_left (analyse_criterion text) table st) =
  fold_left
    (fun total_score config =>
       add_on_first_hit (keywords config) text (weight config) total_score)
    table (snd st).
Proof.
  revert st; induction table as [|config table IH]; intros st; simpl;
    [reflexivity|].
  rewrite IH. f_equal. rewrite add_on_first_hit_once. unfold analyse_criterion.
  pose proof (filter_hit (keywords config) text) as H.
  destruct (List.filter _ (keywords config)); rewrite H; reflexivity.
Qed.

Lemma analysis_loop_short (text : string) (table : list criterion_config)
    (st : list criteria_match * Q) :
  Forall (fun m => List.length (matched_keywords m) <= 3) (fst st) ->
  Forall (fun m => List.length (matched_keywords m) <= 3)
         (fst (fold_left (analyse_criterion text) table st)).
Proof.
  revert st; induction table as [|config table IH]; intros st Hst; simpl;
    [exact Hst|].
  apply IH. unfold analyse_criterion.
  destruct (List.filter _ (keywords config)) as [|k ks] eqn:E; [exact Hst|].
  cbn [fst]. apply Forall_app. split; [exact Hst|].
  constructor; [|constructor]. cbn [matched_keywords].
  rewrite length_take. lia.
Qed.

(** The counting loop of the exclusion gate is the sum of the numbers of
    matches. *)
Lemma count_loop_sum (text : string) (patterns : list regex) (acc : nat) :
  fold_left (fun count pattern => count + List.length (findall pattern text))
            patterns acc =
  acc + list_sum (map (fun pattern => List.length (findall pattern text)) patterns).
Proof.
  revert acc; induction patterns as [|r rs IH]; intros acc; simpl; [lia|].
  rewrite IH. lia.
Qed.

Lemma exclusion_count_total (text : string) :
  exclusion_count text = total_matches text.
Proof. unfold exclusion_count, total_matches. now rewrite count_loop_sum. Qed.

(** The run of [detect], stage by stage. *)
Lemma detect_run_unfold (event : EventContext) :
  detect_run event =
  let text := lower (title event +:+ " " +:+ content event) in
  if negb (_check_geographic_requirement text) then ([Geographic], "no")
  else if negb (_check_confirmed_outcome text)
       then ([Geographic; Confirmation], "no")
  else if _check_exclusion_patterns text
       then ([Geographic; Confirmation; Exclusion], "no")
  else ([Geographic; Confirmation; Exclusion; Scoring],
        if Qle_bool THRESHOLD (_evaluate_criteria text) then "yes" else "no").
Proof.
  unfold detect_run, bind, call, ret. cbv zeta.
  destruct (_check_geographic_requirement _); [|reflexivity].
  destruct (_check_confirmed_outcome _); [|reflexivity].
  destruct (_check_exclusion_patterns _); [reflexivity|].
  cbn [negb fst snd app]. now destruct (Qle_bool _ _).
Qed.

End Loops.

(** ** The decision *)

Section Decision.

Import PyStr Regex Detector Spec.

Lemma detect_unfold (event : EventContext) :
  detect event =
  let text := lower (title event +:+ " " +:+ content event) in
  if _check_geographic_requirement text
     && _check_confirmed_outcome text
     && negb (_check_exclusion_patterns text)
     && Qle_bool THRESHOLD (_evaluate_criteria text)
  then "yes" else "no".
Proof.
  unfold detect. rewrite detect_run_unfold. cbv zeta.
  destruct (_check_geographic_requirement _); [|reflexivity].
  destruct (_check_confirmed_outcome _); [|reflexivity].
  destruct (_check_exclusion_patterns _); [reflexivity|].
  cbn [negb andb snd]. reflexivity.
Qed.

Lemma detect_yes_or_no (event : EventContext) :
  detect event = "yes" \/ detect event = "no".
Proof. rewrite detect_unfold. cbv zeta. destruct (_ && _); auto. Qed.

(** The verdict is "yes" exactly when the four conditions hold. *)
Lemma detect_yes_iff (event : EventContext) :
  let text := lower (title event +:+ " " +:+ content event) in
  detect event = "yes" <->
  _check_geographic_requirement text = true /\
  _check_confirmed_outcome text = true /\
  _check_exclusion_patterns text = false /\
  (2.0 <= _evaluate_criteria text)%Q.
Proof.
  rewrite detect_unfold. cbv zeta.
  destruct (_check_geographic_requirement _);
    [|split; [discriminate | intros [H _]; discriminate]].
  destruct (_check_confirmed_outcome _);
    [|split; [discriminate | intros (_ & H & _); discriminate]].
  destruct (_check_exclusion_patterns _);
    [split; [discriminate | intros (_ & _ & H & _); discriminate]|].
  cbn [andb negb]. fold THRESHOLD.
  destruct (Qle_bool THRESHOLD _) eqn:E.
  - apply Qle_bool_iff in E. tauto.
  - split; [discriminate|]. intros (_ & _ & _ & H).
    apply Qle_bool_iff in H. congruence.
Qed.

(** C1. [detect] answers "yes" exactly when the geographic gate and the
    confirmation gate pass on the lower-cased "title content", the
    exclusion gate does not fire and the weighted score is at least 2.0; it
    answers "yes" or "no" and nothing else; and a run stops at the first
    gate that fails, with "no", having evaluated no later stage. *)
Theorem detect_four_gates (event : EventContext) :
  let text := lower (title event +:+ " " +:+ content event) in
  (detect event = "yes" <->
     _check_geographic_requirement text = true /\
     _check_confirmed_outcome text = true /\
     _check_exclusion_patterns text = false /\
     (2.0 <= _evaluate_criteria text)%Q) /\
  (detect event = "yes" \/ detect event = "no") /\
  detect_run event =
    (if negb (_check_geographic_requirement text) then ([Geographic], "no")
     else if negb (_check_confirmed_outcome text)
          then ([Geographic; Confirmation], "no")
     else if _check_exclusion_patterns text
          then ([Geographic; Confirmation; Exclusion], "no")
     else ([Geographic; Confirmation; Exclusion; Scoring],
           if Qle_bool 2.0 (_evaluate_criteria text) then "yes" else "no")).
Proof.
  cbv zeta. split; [|split; [apply detect_yes_or_no | apply detect_run_unfold]].
  apply detect_yes_iff.
Qed.

(** C2. The score of a text is the sum over the fourteen categories of the
    category's weight, counted once when some keyword of the category
    occurs in the lower-cased text as a literal substring and not at all
    otherwise, however many keywords occur and however often; the names and
    weights are the listed ones. *)
Theorem criteria_score_once_per_category (text : string) :
  (_evaluate_criteria text == weighted_sum (lower text) CRITERIA_KEYWORDS)%Q /\
  (forall config : criterion_config,
     category_hit (lower text) config = true <->
     exists keyword : string,
       In keyword (keywords config) /\ occurs_in keyword (lower text)) /\
  map (fun config => (cfg_name config, weight config)) CRITERIA_KEYWORDS
    = listed_weights /\
  List.length CRITERIA_KEYWORDS = 14.
Proof.
  split; [|split; [|split; reflexivity]].
  - unfold _evaluate_criteria. cbv zeta. rewrite score_loop_sum.
    assert (E : (0.0 == 0)%Q) by reflexivity.
    rewrite E. apply Qplus_0_l.
  - intros config. unfold category_hit. rewrite existsb_exists.
    split; intros [kw [Hin H]]; exists kw; (split; [exact Hin|]);
      now apply contains_occurs.
Qed.

(** C3. The exclusion filter answers true exactly when the matches of the
    five exclusion families over the whole text number three or more; and
    an event that passes the geographic and the confirmation gate with
    three or more such matches gets "no", whatever its score. *)
Theorem exclusion_three_matches (event : EventContext) :
  let text := lower (title event +:+ " " +:+ content event) in
  (forall t : string, _check_exclusion_patterns t = true <-> 3 <= total_matches t) /\
  List.length EXCLUSION_PATTERNS = 5 /\
  (_check_geographic_requirement text = true ->
   _check_confirmed_outcome text = true ->
   3 <= total_matches text ->
   detect event = "no").
Proof.
  cbv zeta.
  assert (Hiff : forall t, _check_exclusion_patterns t = true <-> 3 <= total_matches t).
  { intros t. unfold _check_exclusion_patterns.
    rewrite exclusion_count_total. apply Nat.leb_le. }
  split; [exact Hiff | split; [reflexivity|]].
  intros Hgeo Hconf Hcount. apply Hiff in Hcount.
  rewrite detect_unfold. cbv zeta. now rewrite Hgeo, Hconf, Hcount.
Qed.

(** An event about a confirmed earthquake in Indonesia, hedged three
    times: the score alone would qualify it. *)
Lemma exclusion_three_matches_witness :
  let event := {| title := "Indonesia earthquake confirmed";
                  content := "Damage may, might or could be severe";
                  country := None; is_confirmed := true;
                  has_material_impact := true |} in
  (2.0 <= _evaluate_criteria (lower (title event +:+ " " +:+ content event)))%Q /\
  detect event = "no".
Proof.
  cbv zeta. split.
  - apply Qle_bool_iff. vm_compute. reflexivity.
  - apply (exclusion_three_matches
             {| title := "Indonesia earthquake confirmed";
                content := "Damage may, might or could be severe";
                country := None; is_confirmed := true;
                has_material_impact := true |}).
    + vm_compute. reflexivity.
    + vm_compute. reflexivity.
    + vm_compute. lia.
Defined.

(** C4. The geographic gate passes exactly when some target token occurs
    in the lower-cased "title content" as a literal substring, wherever it
    stands; and when none occurs the verdict is "no". *)
Theorem geographic_gate_substring (event : EventContext) :
  let text := lower (title event +:+ " " +:+ content event) in
  (_check_geographic_requirement text = true <->
   exists token : string, In token TARGET_COUNTRIES /\ occurs_in token text) /\
  ((forall token : string, In token TARGET_COUNTRIES -> ~ occurs_in token text) ->
   detect event = "no").
Proof.
  cbv zeta.
  assert (Hiff : forall t, _check_geographic_requirement (lower t) = true <->
            exists token, In token TARGET_COUNTRIES /\ occurs_in token (lower t)).
  { intros t. unfold _check_geographic_requirement. cbv zeta.
    rewrite lower_idem, any_of_true.
    split; intros [tok [Hin H]]; exists tok; (split; [exact Hin|]);
      now apply contains_occurs. }
  split; [apply Hiff|].
  intros Hnone. rewrite detect_unfold. cbv zeta.
  destruct (_check_geographic_requirement _) eqn:E; [|reflexivity].
  apply Hiff in E as [tok [Hin H]]. now destruct (Hnone tok Hin).
Qed.

(** A text that names no target country, with a score that would
    qualify. *)
Lemma geographic_gate_substring_witness :
  let event := {| title := "Thailand earthquake confirmed";
                  content := "Hundreds were killed in Bangkok";
                  country := Some "indonesia"; is_confirmed := true;
                  has_material_impact := true |} in
  (2.0 <= _evaluate_criteria (lower (title event +:+ " " +:+ content event)))%Q /\
  detect event = "no".
Proof.
  cbv zeta. split.
  - apply Qle_bool_iff. vm_compute. reflexivity.
  - apply (geographic_gate_substring
             {| title := "Thailand earthquake confirmed";
                content := "Hundreds were killed in Bangkok";
                country := Some "indonesia"; is_confirmed := true;
                has_material_impact := true |}).
    intros token Hin Hocc. apply contains_occurs in Hocc.
    revert Hocc. simpl in Hin.
    repeat (destruct Hin as [<-|Hin]; [vm_compute; discriminate|]).
    destruct Hin.
Defined.

End Decision.

(** ** The detailed analysis, the hints and the batch records *)

Section Analysis.

Import PyStr Regex Detector Spec Pipeline.

(** The categories listed by the detailed analysis are the categories hit,
    in the order of the table. *)
Lemma analysis_loop_names (text : string) (table : list criterion_config)
    (st : list criteria_match * Q) :
  map criterion (fst (fold_left (analyse_criterion text) table st)) =
  map criterion (fst st) ++ map cfg_name (List.filter (category_hit text) table).
Proof.
  revert st; induction table as [|config table IH]; intros st.
  - cbn [fold_left List.filter map]. now rewrite app_nil_r.
  - cbn [fold_left List.filter]. rewrite IH.
    unfold analyse_criterion, category_hit.
    pose proof (filter_hit (keywords config) text) as H.
    destruct (List.filter _ (keywords config)); rewrite H.
    + reflexivity.
    + cbn [fst map criterion]. rewrite map_app. cbn [map criterion].
      now rewrite <- app_assoc.
Qed.

(** C10. The total score of the detailed analysis is the score that
    [detect] computes with [_evaluate_criteria]; the result of the analysis
    is "yes" exactly when its own fields say that both gates passed, that
    the event is not excluded and that the total score is at least 2.0; and
    no listed category shows more than three keywords. *)
Theorem detailed_analysis_agrees (title content : string) :
  let a := get_detailed_analysis title content in
  let text := lower (title +:+ " " +:+ content) in
  total_score a = _evaluate_criteria text /\
  (result a = "yes" <->
     geographic_match a = true /\ confirmed_outcome a = true /\
     excluded a = false /\ (2.0 <= total_score a)%Q) /\
  Forall (fun m => List.length (matched_keywords m) <= 3) (criteria_matches a) /\
  map criterion (criteria_matches a) =
    map cfg_name (List.filter (category_hit text) CRITERIA_KEYWORDS).
Proof.
  cbv zeta.
  assert (Hscore : total_score (get_detailed_analysis title content) =
                   _evaluate_criteria (lower (title +:+ " " +:+ content))).
  { unfold get_detailed_analysis. cbv zeta. cbn [total_score].
    rewrite analysis_loop_total. unfold _evaluate_criteria. cbv zeta.
    now rewrite lower_idem. }
  split; [exact Hscore|]. split; [|split].
  - rewrite Hscore. unfold get_detailed_analysis. cbv zeta.
    cbn [result geographic_match confirmed_outcome excluded].
    apply (detect_yes_iff
             {| Detector.title := title; Detector.content := content;
                country := None; is_confirmed := false;
                has_material_impact := false |}).
  - unfold get_detailed_analysis. cbv zeta. cbn [criteria_matches].
    apply analysis_loop_short. constructor.
  - unfold get_detailed_analysis. cbv zeta. cbn [criteria_matches].
    now rewrite analysis_loop_names.
Qed.

(** C9. The verdict depends on the title and the content only: events that
    differ in the country, confirmation or impact hints get the same
    verdict through the same stages, it is the verdict of
    [detect_from_text], and the detailed analyses are the same. *)
Theorem verdict_ignores_hints (e1 e2 : EventContext) :
  title e1 = title e2 ->
  content e1 = content e2 ->
  detect e1 = detect e2 /\
  detect_run e1 = detect_run e2 /\
  detect e1 = detect_from_text (title e1) (content e1) /\
  get_detailed_analysis (title e1) (content e1) =
    get_detailed_analysis (title e2) (content e2).
Proof.
  intros Ht Hc.
  assert (Hrun : forall a b, title a = title b -> content a = content b ->
                             detect_run a = detect_run b).
  { intros a b Hta Hca. unfold detect_run. now rewrite Hta, Hca. }
  split; [|split; [|split]].
  - unfold detect. now rewrite (Hrun e1 e2 Ht Hc).
  - exact (Hrun e1 e2 Ht Hc).
  - reflexivity.
  - now rewrite Ht, Hc.
Qed.

Lemma verdict_ignores_hints_witness :
  let e1 := {| title := "Indonesia imposes export ban on raw nickel ore";
               content := "The policy has been confirmed and finalized.";
               country := None; is_confirmed := false;
               has_material_impact := false |} in
  let e2 := {| title := "Indonesia imposes export ban on raw nickel ore";
               content := "The policy has been confirmed and finalized.";
               country := Some "laos"; is_confirmed := true;
               has_material_impact := true |} in
  detect e1 = detect e2 /\
  detect_run e1 = detect_run e2 /\
  detect e1 = detect_from_text (title e1) (content e1) /\
  get_detailed_analysis (title e1) (content e1) =
    get_detailed_analysis (title e2) (content e2).
Proof.
  cbv zeta.
  apply (verdict_ignores_hints
           {| title := "Indonesia imposes export ban on raw nickel ore";
              content := "The policy has been confirmed and finalized.";
              country := None; is_confirmed := false;
              has_material_impact := false |}
           {| title := "Indonesia imposes export ban on raw nickel ore";
              content := "The policy has been confirmed and finalized.";
              country := Some "laos"; is_confirmed := true;
              has_material_impact := true |});
    reflexivity.
Defined.

Lemma empty_text_fails_geography :
  _check_geographic_requirement (lower (EmptyString +:+ " " +:+ EmptyString)) = false.
Proof. vm_compute. reflexivity. Qed.

(** C8. A batch record whose title, content, description and summary are
    missing or empty is classified from an empty title and an empty
    content; the classifier has a verdict for every title and content; and
    on empty text the geographic gate fails and the verdict is "no". *)
Theorem missing_fields_are_empty_text (now : string) (event : gmap string string) :
  (forall key : string,
     In key ["title"; "content"; "description"; "summary"] ->
     event !! key = None \/ event !! key = Some EmptyString) ->
  event_title event = EmptyString /\
  event_content event = EmptyString /\
  process_event now event !! "negative_high_impact"
    = Some (detect_from_text EmptyString EmptyString) /\
  _check_geographic_requirement (lower (EmptyString +:+ " " +:+ EmptyString)) = false /\
  detect_from_text EmptyString EmptyString = "no" /\
  (forall title content : string,
     detect_from_text title content = "yes" \/ detect_from_text title content = "no").
Proof.
  intros Hfields.
  assert (Hget : forall key, In key ["title"; "content"; "description"; "summary"] ->
                             get event key = EmptyString).
  { intros key Hin. unfold get. now destruct (Hfields key Hin) as [-> | ->]. }
  assert (Ht : event_title event = EmptyString).
  { apply Hget. simpl. auto. }
  assert (Hc : event_content event = EmptyString).
  { unfold event_content. rewrite !Hget by (simpl; auto). reflexivity. }
  split; [exact Ht|]. split; [exact Hc|].
  split; [|split; [|split]].
  - unfold process_event.
    rewrite lookup_insert_ne by discriminate.
    rewrite lookup_insert_eq. now rewrite Ht, Hc.
  - exact empty_text_fails_geography.
  - vm_compute. reflexivity.
  - intros title content. apply detect_yes_or_no.
Qed.

(** A record with an empty title, a link and nothing else. *)
Lemma missing_fields_are_empty_text_witness :
  let event : gmap string string :=
    <["title" := EmptyString]> (<["link" := "https://example.org/a"]> ∅) in
  event_title event = EmptyString /\
  event_content event = EmptyString /\
  process_event "2026-01-01T00:00:00" event !! "negative_high_impact"
    = Some (detect_from_text EmptyString EmptyString) /\
  _check_geographic_requirement (lower (EmptyString +:+ " " +:+ EmptyString)) = false /\
  detect_from_text EmptyString EmptyString = "no" /\
  (forall title content : string,
     detect_from_text title content = "yes" \/ detect_from_text title content = "no").
Proof.
  cbv zeta.
  apply (missing_fields_are_empty_text "2026-01-01T00:00:00"
           (<["title" := EmptyString]> (<["link" := "https://example.org/a"]> ∅))).
  intros key Hin. simpl in Hin.
  destruct Hin as [<-|[<-|[<-|[<-|[]]]]]; vm_compute; auto.
Defined.

End Analysis.

(** ** Case transformations and the reference input *)

Section CaseFacts.

Import PyStr Regex Detector Spec.




(** [s.lower()] is a case transformation of [s]. *)
Lemma lower_is_case_variant (s : string) : case_variant s (lower s).
Proof. induction s as [|c s IH]; simpl; constructor; exact IH. Qed.





(** C7 as stated fails: the analysis of the reference input lists
    production_disruption but not infrastructure_failure. *)
Lemma port_strike_lists_no_infrastructure_failure :
  let listed :=
    map criterion (criteria_matches (get_detailed_analysis port_title port_content)) in
  In "production_disruption" listed /\ ~ In "infrastructure_failure" listed.
Proof.
  cbv zeta.
  assert (E : map criterion
                (criteria_matches (get_detailed_analysis port_title port_content))
              = ["production_disruption"]) by (vm_compute; reflexivity).
  rewrite E. split; [now left|].
  intros [H|[]]. discriminate H.
Qed.

(** C7, as the code has it.  For the reference input the verdict is
    "yes"; the analysis lists the one category production_disruption, with
    the keywords "strike began" and "workers' strike"; no keyword of
    infrastructure_failure occurs in the text; and the total score is 3.0,
    above the threshold 2.0. *)
Theorem port_strike_analysis :
  let a := get_detailed_analysis port_title port_content in
  let text := lower (port_title +:+ " " +:+ port_content) in
  detect_from_text port_title port_content = "yes" /\
  result a = "yes" /\
  criteria_matches a =
    [ {| criterion := "production_disruption";
         matched_keywords := ["strike began"; "workers' strike"];
         matched_weight := 3.0 |} ] /\
  (forall config : criterion_config,
     In config CRITERIA_KEYWORDS ->
     cfg_name config = "infrastructure_failure" ->
     category_hit text config = false) /\
  (total_score a == 3.0)%Q /\
  (2.0 <= total_score a)%Q.
Proof.
  cbv zeta. split; [vm_compute; reflexivity|].
  split; [vm_compute; reflexivity|].
  split; [vm_compute; reflexivity|].
  split.
  - intros config Hin Hname. unfold CRITERIA_KEYWORDS in Hin.
    repeat (destruct Hin as [<-|Hin]; [try discriminate Hname|]);
      [vm_compute; reflexivity | destruct Hin].
  - split; [vm_compute; reflexivity|].
    apply Qle_bool_iff. vm_compute. reflexivity.
Qed.

End CaseFacts.

(** ** The matcher and what a pattern matches *)

Section EngineFacts.

Import PyStr Regex Detector Spec.







End EngineFacts.

(** ** Literals and spaces, read on the text *)

Section TextFacts.

Import PyStr Regex Detector Spec.















End TextFacts.

(** ** Scanning with a pattern that matches whole words *)

Section ScanFacts.

Import PyStr Regex Detector Spec.

Variable r : regex.

(** The pattern starts with [\b]: it matches nowhere inside a word. *)
Hypothesis inside_word :
  forall (p : option ascii) (c : ascii) (s : string),
    word_opt p = true -> is_word c = true -> match_at r (p, String c s) = None.

(** The pattern consumes a non-empty run of word characters. *)
Hypothesis consumes_word :
  forall (p : option ascii) (s : string) (e : cursor),
    match_at r (p, s) = Some e ->
    exists x : string,
      x <> EmptyString /\ all_chars is_word x = true /\ s = x +:+ ahead e.





End ScanFacts.

(** ** The warning family of the exclusion patterns *)

Section WarningFamily.

Import PyStr Regex Detector Spec.













End WarningFamily.

(** ** The lookahead of the warning family *)

Section WarningLookahead.

Import PyStr Regex Detector Spec.






End WarningLookahead.

(** ** Each stage on a text and on its lower-cased form *)

Section CaseBlind.

Import PyStr Regex Detector Spec Cover.






Lemma lower_cursor_pair (p : option ascii) (s : string) :
  lower_cursor (p, s) = (option_map lower_char p, lower s).
Proof. reflexivity. Qed.














End CaseBlind.

(** ** Phrases that stand alone in a text *)

Section Occurrences.

Import PyStr Regex Detector Spec Cover.










End Occurrences.

(** ** The confirmation gate, read on the text *)

Section ConfirmationGate.

Import PyStr Regex Detector Spec Cover.









End ConfirmationGate.

(** ** The weighted score *)

Section ScoreFacts.

Import PyStr Regex Detector Spec Cover.

Lemma evaluate_criteria_sum (text : string) :
  (_evaluate_criteria text == weighted_sum (lower text) CRITERIA_KEYWORDS)%Q.
Proof.
  unfold _evaluate_criteria. cbv zeta. rewrite score_loop_sum.
  assert (E : (0.0 == 0)%Q) by reflexivity.
  rewrite E. apply Qplus_0_l.
Qed.

Lemma weights_nonnegative (config : criterion_config) :
  In config CRITERIA_KEYWORDS -> (0 <= weight config)%Q.
Proof.
  intros Hin.
  assert (H : forallb (fun c => Qle_bool 0 (weight c)) CRITERIA_KEYWORDS = true)
    by (vm_compute; reflexivity).
  apply Qle_bool_iff. exact (proj1 (forallb_forall _ _) H config Hin).
Qed.

Lemma Qle_plus_nonneg (a b : Q) : (0 <= a -> 0 <= b -> 0 <= a + b)%Q.
Proof. intros. lra. Qed.

Lemma Qle_plus_right (a b : Q) : (0 <= b -> a <= a + b)%Q.
Proof. intros. lra. Qed.

Lemma Qle_plus_left (a b : Q) : (0 <= b -> a <= b + a)%Q.
Proof. intros. lra. Qed.

Lemma weighted_sum_nonneg (text : string) (table : list criterion_config) :
  (forall c : criterion_config, In c table -> (0 <= weight c)%Q) ->
  (0 <= weighted_sum text table)%Q.
Proof.
  induction table as [|c table IH]; intros Hw; cbn [weighted_sum].
  - apply Qle_refl.
  - apply Qle_plus_nonneg.
    + destruct (category_hit text c); [apply Hw; now left | apply Qle_refl].
    + apply IH. intros c' Hin. apply Hw. now right.
Qed.

Lemma weighted_sum_le_total (text : string) (table : list criterion_config) :
  (forall c : criterion_config, In c table -> (0 <= weight c)%Q) ->
  (weighted_sum text table <= total_weight table)%Q.
Proof.
  induction table as [|c table IH]; intros Hw;
    cbn [weighted_sum total_weight].
  - apply Qle_refl.
  - apply Qplus_le_compat.
    + destruct (category_hit text c); [apply Qle_refl | apply Hw; now left].
    + apply IH. intros c' Hin. apply Hw. now right.
Qed.

(** A category that is hit contributes its whole weight. *)
Lemma weighted_sum_ge_hit (text : string) (table : list criterion_config)
    (config : criterion_config) :
  (forall c : criterion_config, In c table -> (0 <= weight c)%Q) ->
  In config table -> category_hit text config = true ->
  (weight config <= weighted_sum text table)%Q.
Proof.
  induction table as [|c table IH]; intros Hw Hin Hhit; [destruct Hin|].
  cbn [weighted_sum]. destruct Hin as [->|Hin].
  - rewrite Hhit. apply Qle_plus_right.
    apply weighted_sum_nonneg. intros c' Hc'. apply Hw. now right.
  - apply Qle_trans with (weighted_sum text table).
    + apply IH; [|exact Hin | exact Hhit]. intros c' Hc'. apply Hw. now right.
    + apply Qle_plus_left.
      destruct (category_hit text c); [apply Hw; now left | apply Qle_refl].
Qed.

(** More categories hit, more score. *)
Lemma weighted_sum_mono (s t : string) (table : list criterion_config) :
  (forall c : criterion_config, In c table -> (0 <= weight c)%Q) ->
  (forall c : criterion_config,
     In c table -> category_hit s c = true -> category_hit t c = true) ->
  (weighted_sum s table <= weighted_sum t table)%Q.
Proof.
  induction table as [|c table IH]; intros Hw Hhit; cbn [weighted_sum].
  - apply Qle_refl.
  - apply Qplus_le_compat.
    + destruct (category_hit s c) eqn:E.
      * rewrite (Hhit c (or_introl eq_refl) E). apply Qle_refl.
      * destruct (category_hit t c); [apply Hw; now left | apply Qle_refl].
    + apply IH; intros c' Hin; [apply Hw | apply Hhit]; now right.
Qed.

(** When only entries of one name are hit, the score is at most their
    weight. *)
Lemma weighted_sum_only_named (text name : string) (table : list criterion_config) :
  (forall c : criterion_config, In c table -> (0 <= weight c)%Q) ->
  (forall c : criterion_config,
     In c table -> category_hit text c = true -> cfg_name c = name) ->
  (weighted_sum text table <= named_weight name table)%Q.
Proof.
  induction table as [|c table IH]; intros Hw Hname;
    cbn [weighted_sum named_weight].
  - apply Qle_refl.
  - apply Qplus_le_compat.
    + destruct (category_hit text c) eqn:E.
      * rewrite (Hname c (or_introl eq_refl) E), String.eqb_refl. apply Qle_refl.
      * destruct (String.eqb (cfg_name c) name);
          [apply Hw; now left | apply Qle_refl].
    + apply IH; intros c' Hin; [apply Hw | apply Hname]; now right.
Qed.

Lemma occurs_in_trans (kw s t : string) :
  occurs_in kw s -> occurs_in s t -> occurs_in kw t.
Proof.
  intros (l & r & ->) (l' & r' & ->). exists (l' +:+ l), (r +:+ r').
  now rewrite !app_assoc_str.
Qed.

Lemma category_hit_mono (s t : string) (config : criterion_config) :
  occurs_in s t -> category_hit s config = true -> category_hit t config = true.
Proof.
  intros Hst H. unfold category_hit in *.
  apply existsb_exists in H as (kw & Hin & Hkw). apply existsb_exists.
  exists kw. split; [exact Hin|]. apply contains_occurs.
  apply contains_occurs in Hkw. exact (occurs_in_trans _ _ _ Hkw Hst).
Qed.

Lemma lower_occurs (pre s post : string) :
  occurs_in (lower s) (lower (pre +:+ s +:+ post)).
Proof. exists (lower pre), (lower post). now rewrite !lower_app. Qed.

(** X3.  The score reaches the threshold 2.0 exactly when some category
    other than structural_escalation is hit: that category, with its
    weight 1.5, never qualifies an event alone, and every other category
    does. *)
Theorem threshold_needs_a_weighty_category (text : string) :
  (2.0 <= _evaluate_criteria text)%Q <->
  exists config : criterion_config,
    In config CRITERIA_KEYWORDS /\
    cfg_name config <> "structural_escalation" /\
    category_hit (lower text) config = true.
Proof.
  rewrite evaluate_criteria_sum. split.
  - intros Hscore.
    destruct (existsb
                (fun c => negb (String.eqb (cfg_name c) "structural_escalation")
                          && category_hit (lower text) c)
                CRITERIA_KEYWORDS) eqn:E.
    + apply existsb_exists in E as (c & Hin & Hc).
      apply andb_true_iff in Hc as [Hname Hhit]. exists c.
      split; [exact Hin|]. split; [|exact Hhit].
      apply negb_true_iff in Hname. now apply String.eqb_neq.
    + exfalso.
      assert (Hle : (weighted_sum (lower text) CRITERIA_KEYWORDS
                     <= named_weight "structural_escalation" CRITERIA_KEYWORDS)%Q).
      { apply weighted_sum_only_named; [exact weights_nonnegative|].
        intros c Hin Hhit.
        destruct (String.eqb (cfg_name c) "structural_escalation") eqn:En;
          [now apply String.eqb_eq|].
        assert (Hex : existsb
                        (fun c => negb (String.eqb (cfg_name c) "structural_escalation")
                                  && category_hit (lower text) c)
                        CRITERIA_KEYWORDS = true).
        { apply existsb_exists. exists c. split; [exact Hin|].
          now rewrite En, Hhit. }
        congruence. }
      pose proof (Qle_trans _ _ _ Hscore Hle) as Habs.
      apply Qle_bool_iff in Habs. vm_compute in Habs. discriminate Habs.
  - intros (c & Hin & Hname & Hhit).
    apply Qle_trans with (weight c).
    + assert (H : forallb
                    (fun c => String.eqb (cfg_name c) "structural_escalation"
                              || Qle_bool 2.0 (weight c))
                    CRITERIA_KEYWORDS = true) by (vm_compute; reflexivity).
      pose proof (proj1 (forallb_forall _ _) H c Hin) as Hc.
      apply orb_true_iff in Hc as [Hc|Hc].
      * apply String.eqb_eq in Hc. now destruct Hname.
      * now apply Qle_bool_iff.
    + exact (weighted_sum_ge_hit _ _ c weights_nonnegative Hin Hhit).
Qed.

(** X4.  The score lies between 0 and 38.0, the sum of the fourteen
    weights. *)
Theorem score_bounds (text : string) :
  (0 <= _evaluate_criteria text)%Q /\
  (_evaluate_criteria text <= 38.0)%Q /\
  (total_weight CRITERIA_KEYWORDS == 38.0)%Q.
Proof.
  assert (Htotal : (total_weight CRITERIA_KEYWORDS == 38.0)%Q)
    by (vm_compute; reflexivity).
  rewrite evaluate_criteria_sum. split; [|split; [|exact Htotal]].
  - exact (weighted_sum_nonneg _ _ weights_nonnegative).
  - rewrite <- Htotal. exact (weighted_sum_le_total _ _ weights_nonnegative).
Qed.

(** X5.  Text around a text takes nothing away: the score of a text that
    contains another is at least the score of the other, every category
    hit stays hit, and the geographic gate stays passed. *)
Theorem score_grows_with_text (pre s post : string) :
  (_evaluate_criteria s <= _evaluate_criteria (pre +:+ s +:+ post))%Q /\
  (forall config : criterion_config,
     category_hit (lower s) config = true ->
     category_hit (lower (pre +:+ s +:+ post)) config = true) /\
  (_check_geographic_requirement s = true ->
   _check_geographic_requirement (pre +:+ s +:+ post) = true).
Proof.
  pose proof (lower_occurs pre s post) as Hocc.
  split; [|split].
  - rewrite !evaluate_criteria_sum.
    apply weighted_sum_mono; [exact weights_nonnegative|].
    intros c _. now apply category_hit_mono.
  - intros config. now apply category_hit_mono.
  - unfold _check_geographic_requirement. cbv zeta. rewrite !any_of_true.
    intros (token & Hin & Htok). exists token. split; [exact Hin|].
    apply contains_occurs. apply contains_occurs in Htok.
    exact (occurs_in_trans _ _ _ Htok Hocc).
Qed.

Lemma score_grows_with_text_witness :
  (_evaluate_criteria "blackout"
   <= _evaluate_criteria ("Jakarta: " +:+ "blackout" +:+ " confirmed"))%Q /\
  _check_geographic_requirement ("A " +:+ "Hanoi" +:+ "an") = true.
Proof.
  split.
  - exact (proj1 (score_grows_with_text "Jakarta: " "blackout" " confirmed")).
  - apply (proj2 (proj2 (score_grows_with_text "A " "Hanoi" "an"))).
    vm_compute. reflexivity.
Defined.

Lemma listing_le_weighted (kw text : string) (table : list criterion_config) :
  (forall c : criterion_config, In c table -> (0 <= weight c)%Q) ->
  occurs_in kw text ->
  (listing_weight kw table <= weighted_sum text table)%Q.
Proof.
  intros Hw Hocc. induction table as [|c table IH];
    cbn [listing_weight weighted_sum].
  - apply Qle_refl.
  - apply Qplus_le_compat.
    + destruct (existsb (String.eqb kw) (keywords c)) eqn:E.
      * assert (Hhit : category_hit text c = true).
        { apply existsb_exists in E as (k & Hin & Hk).
          apply String.eqb_eq in Hk. subst k.
          unfold category_hit. apply existsb_exists. exists kw.
          split; [exact Hin | now apply contains_occurs]. }
        rewrite Hhit. apply Qle_refl.
      * destruct (category_hit text c); [apply Hw; now left | apply Qle_refl].
    + apply IH. intros c' Hin. apply Hw. now right.
Qed.

(** X6.  A keyword that several categories list counts for each of them:
    when it occurs in the lower-cased text, the score is at least the sum
    of the weights of the categories that list it. *)
Theorem shared_keyword_counts_per_category (text keyword : string) :
  occurs_in keyword (lower text) ->
  (listing_weight keyword CRITERIA_KEYWORDS <= _evaluate_criteria text)%Q.
Proof.
  intros Hocc. rewrite evaluate_criteria_sum.
  exact (listing_le_weighted _ _ _ weights_nonnegative Hocc).
Qed.

(** "blackout" is listed by production_disruption and by
    infrastructure_failure, 3.0 each. *)
Lemma shared_keyword_counts_per_category_witness :
  (listing_weight "blackout" CRITERIA_KEYWORDS == 6.0)%Q /\
  (listing_weight "blackout" CRITERIA_KEYWORDS
   <= _evaluate_criteria "Blackout hits Jakarta")%Q.
Proof.
  split; [vm_compute; reflexivity|].
  apply (shared_keyword_counts_per_category "Blackout hits Jakarta" "blackout").
  apply contains_occurs. vm_compute. reflexivity.
Defined.

End ScoreFacts.

(** ** The entries of the detailed analysis *)

Section AnalysisEntries.

Import PyStr Regex Detector Spec Cover.

Lemma listed_total_snoc (entries : list criteria_match) (m : criteria_match) :
  (listed_total (entries ++ [m]) == listed_total entries + matched_weight m)%Q.
Proof.
  induction entries as [|m' entries IH]; cbn [app listed_total].
  - lra.
  - rewrite IH. lra.
Qed.

Lemma analysis_loop_entries (text : string) (all table : list criterion_config)
    (st : list criteria_match * Q) :
  (forall c : criterion_config, In c table -> In c all) ->
  Forall (entry_of_table all text) (fst st) ->
  (listed_total (fst st) == snd st)%Q ->
  Forall (entry_of_table all text)
         (fst (fold_left (analyse_criterion text) table st)) /\
  (listed_total (fst (fold_left (analyse_criterion text) table st))
   == snd (fold_left (analyse_criterion text) table st))%Q.
Proof.
  revert st; induction table as [|config table IH]; intros st Hsub Hok Hsum.
  - now split.
  - cbn [fold_left]. apply IH.
    + intros c Hc. apply Hsub. now right.
    + unfold analyse_criterion.
      destruct (List.filter _ (keywords config)) as [|k ks] eqn:E; [exact Hok|].
      cbn [fst]. apply Forall_app. split; [exact Hok|].
      constructor; [|constructor].
      exists config. cbn [criterion matched_weight matched_keywords].
      split; [apply Hsub; now left|]. split; [reflexivity|].
      split; [reflexivity|]. split; [discriminate|].
      intros kw Hkw.
      assert (Hin : In kw (List.filter (fun keyword => contains keyword text)
                                       (keywords config))).
      { rewrite E. rewrite <- (firstn_skipn 3 (k :: ks)).
        apply in_or_app. now left. }
      apply filter_In in Hin as [Hin Hc].
      split; [exact Hin | now apply contains_occurs].
    + unfold analyse_criterion.
      destruct (List.filter _ (keywords config)) as [|k ks]; [exact Hsum|].
      cbn [fst snd]. rewrite listed_total_snoc.
      cbn [matched_weight]. now rewrite Hsum.
Qed.

(** X7.  Every entry of the detailed analysis is the entry of a category
    of the table, with the category's name and weight and with at least
    one keyword; each keyword shown is a keyword of that category that
    occurs in the lower-cased text; and the weights of the entries add up
    to the total score. *)
Theorem analysis_entries_are_sound (title content : string) :
  let a := get_detailed_analysis title content in
  let text := lower (title +:+ " " +:+ content) in
  Forall (entry_of_table CRITERIA_KEYWORDS text) (criteria_matches a) /\
  (listed_total (criteria_matches a) == total_score a)%Q.
Proof.
  cbv zeta. unfold get_detailed_analysis. cbv zeta.
  cbn [criteria_matches total_score].
  apply analysis_loop_entries.
  - intros c Hc. exact Hc.
  - constructor.
  - reflexivity.
Qed.

End AnalysisEntries.

(** ** Batch records *)

Section BatchFacts.

Import PyStr Regex Detector Spec Pipeline Batch Cover.

Lemma get_after_insert (event : gmap string string) (key key' value : string) :
  key <> key' -> get (<[key := value]> event) key' = get event key'.
Proof. intros Hne. unfold get. now rewrite lookup_insert_ne. Qed.

(** Stamping a record changes neither the title nor the content it is
    classified from. *)
Lemma processed_text_unchanged (now : string) (event : gmap string string) :
  event_title (process_event now event) = event_title event /\
  event_content (process_event now event) = event_content event.
Proof.
  unfold event_title, event_content, process_event.
  now rewrite !get_after_insert by discriminate.
Qed.

Lemma detect_from_text_yes_or_no (title content : string) :
  detect_from_text title content = "yes" \/ detect_from_text title content = "no".
Proof. exact (detect_yes_or_no _). Qed.

Lemma processed_verdict (now : string) (event : gmap string string) :
  process_event now event !! "negative_high_impact"
  = Some (detect_from_text (event_title event) (event_content event)).
Proof.
  unfold process_event. rewrite lookup_insert_ne by discriminate.
  apply lookup_insert_eq.
Qed.

(** X8.  A processed record carries the verdict of its title and content,
    "yes" or "no", under negative_high_impact and the time of processing
    under processed_at, whatever it held under these two keys before, and
    every other field as it was. *)
Theorem process_event_fields (now : string) (event : gmap string string) :
  process_event now event !! "negative_high_impact"
    = Some (detect_from_text (event_title event) (event_content event)) /\
  (process_event now event !! "negative_high_impact" = Some "yes" \/
   process_event now event !! "negative_high_impact" = Some "no") /\
  process_event now event !! "processed_at" = Some now /\
  (forall key : string,
     key <> "negative_high_impact" -> key <> "processed_at" ->
     process_event now event !! key = event !! key).
Proof.
  pose proof (processed_verdict now event) as Hv.
  split; [exact Hv|]. split; [|split].
  - rewrite Hv.
    destruct (detect_from_text_yes_or_no (event_title event) (event_content event))
      as [H|H]; [left | right]; now rewrite H.
  - unfold process_event. apply lookup_insert_eq.
  - intros key Hn Hp. unfold process_event.
    rewrite lookup_insert_ne by congruence.
    now rewrite lookup_insert_ne by congruence.
Qed.

(** X9.  Processing a processed record again gives what processing the
    record itself at that later time gives: the verdict is the same and
    only the time changes. *)
Theorem reprocessing_is_idempotent (now later : string)
    (event : gmap string string) :
  process_event later (process_event now event) = process_event later event /\
  process_event later (process_event now event) !! "negative_high_impact"
    = process_event now event !! "negative_high_impact".
Proof.
  destruct (processed_text_unchanged now event) as [Ht Hc].
  assert (E : process_event later (process_event now event)
              = process_event later event).
  { unfold process_event at 1. rewrite Ht, Hc. unfold process_event.
    apply map_eq. intros key. rewrite !lookup_insert.
    repeat case_decide; congruence. }
  split; [exact E|]. rewrite E.
  now rewrite !processed_verdict.
Qed.

Lemma process_events_lookup (clock : nat -> string)
    (events : list (gmap string string)) :
  forall k i : nat,
    process_events clock k events !! i
    = option_map (process_event (clock (k + i))) (events !! i).
Proof.
  induction events as [|event events IH]; intros k i; [reflexivity|].
  destruct i as [|i]; cbn [process_events].
  - cbn. now rewrite Nat.add_0_r.
  - cbn. rewrite IH. now rewrite Nat.add_succ_r.
Qed.

Lemma process_events_length (clock : nat -> string)
    (events : list (gmap string string)) :
  forall k : nat, List.length (process_events clock k events) = List.length events.
Proof.
  induction events as [|event events IH]; intros k; [reflexivity|].
  cbn [process_events List.length]. now rewrite IH.
Qed.

(** X10.  The batch keeps the number and the order of the records: the
    result at each place is the processed record of that place. *)
Theorem batch_keeps_order (clock : nat -> string)
    (events : list (gmap string string)) :
  List.length (process_json_file clock events) = List.length events /\
  (forall i : nat,
     process_json_file clock events !! i
     = option_map (process_event (clock i)) (events !! i)).
Proof.
  split; [apply process_events_length|].
  intros i. exact (process_events_lookup clock events 0 i).
Qed.

Lemma verdict_count_split (events : list (gmap string string)) :
  verdict_count "yes" events + verdict_count "no" events = List.length events.
Proof.
  unfold verdict_count. induction events as [|event events IH]; [reflexivity|].
  cbn [List.filter].
  destruct (detect_from_text_yes_or_no (event_title event) (event_content event))
    as [H|H]; rewrite H.
  - change (String.eqb "yes" "yes") with true.
    change (String.eqb "yes" "no") with false.
    cbn [List.length]. lia.
  - change (String.eqb "no" "yes") with false.
    change (String.eqb "no" "no") with true.
    cbn [List.length]. lia.
Qed.

Lemma positive_count_processed (clock : nat -> string)
    (events : list (gmap string string)) :
  forall k : nat,
    positive_count (process_events clock k events)
    = Some (verdict_count "yes" events).
Proof.
  unfold verdict_count.
  induction events as [|event events IH]; intros k; [reflexivity|].
  cbn [process_events positive_count List.filter].
  rewrite processed_verdict, IH.
  now destruct (String.eqb (detect_from_text (event_title event)
                                             (event_content event)) "yes").
Qed.

(** X11.  After a batch, the summary of [main] finds the verdict key in
    every record and reports the number of records, the number of records
    whose title and content get "yes" and the number of those that get
    "no"; the last two add up to the first. *)
Theorem batch_summary_counts (clock : nat -> string)
    (events : list (gmap string string)) :
  summary (process_json_file clock events)
  = Some (List.length events, verdict_count "yes" events,
          verdict_count "no" events) /\
  verdict_count "yes" events + verdict_count "no" events = List.length events.
Proof.
  split; [|apply verdict_count_split].
  unfold summary, process_json_file.
  rewrite positive_count_processed, process_events_length.
  pose proof (verdict_count_split events) as H.
  repeat f_equal. lia.
Qed.

End BatchFacts.

(** ** The line mode *)

Section LineMode.

Import PyStr Regex Detector Spec Pipeline Batch Cover.

Lemma split_lines_cons (s : string) :
  exists (piece : string) (pieces : list string),
    split_lines s = piece :: pieces.
Proof.
  induction s as [|c s [piece [pieces IH]]]; [now exists EmptyString, []|].
  cbn [split_lines]. rewrite IH.
  destruct (Ascii.eqb c newline); eauto.
Qed.

Lemma join_lines_more (piece piece' : string) (pieces : list string) :
  join_lines (piece :: piece' :: pieces)
  = piece +:+ String newline (join_lines (piece' :: pieces)).
Proof. reflexivity. Qed.

(** Joining the pieces of a split gives the text back. *)
Lemma join_split (s : string) : join_lines (split_lines s) = s.
Proof.
  induction s as [|c s IH]; [reflexivity|].
  cbn [split_lines]. destruct (split_lines_cons s) as [piece [pieces E]].
  rewrite E in IH. rewrite E. destruct (Ascii.eqb c newline) eqn:Ec.
  - apply Ascii.eqb_eq in Ec. subst c.
    now rewrite join_lines_more, IH.
  - destruct pieces as [|piece' pieces].
    + cbn [join_lines] in *. now rewrite IH.
    + rewrite join_lines_more in *. now rewrite append_cons, IH.
Qed.

Lemma split_one_line (s : string) : one_line s -> split_lines s = [s].
Proof.
  unfold one_line. induction s as [|c s IH]; [reflexivity|].
  cbn [all_chars]. intros H. apply andb_true_iff in H as [Hc Hs].
  cbn [split_lines]. apply negb_true_iff in Hc. rewrite Hc.
  now rewrite (IH Hs).
Qed.

Lemma split_first_line (title content : string) :
  one_line title ->
  split_lines (title +:+ String newline content) = title :: split_lines content.
Proof.
  unfold one_line. induction title as [|c title IH].
  - intros _. reflexivity.
  - cbn [all_chars]. intros H. apply andb_true_iff in H as [Hc Hs].
    rewrite append_cons. cbn [split_lines].
    apply negb_true_iff in Hc. rewrite Hc. now rewrite (IH Hs).
Qed.

Lemma lstrip_blank (s : string) :
  all_chars is_space s = true -> lstrip s = EmptyString.
Proof.
  induction s as [|c s IH]; [reflexivity|].
  cbn [all_chars lstrip]. intros H. apply andb_true_iff in H as [Hc Hs].
  rewrite Hc. exact (IH Hs).
Qed.

(** X12.  With two lines or more on standard input, once the spaces
    around the whole are stripped, the first line is the title and all the
    rest, line feeds included, is the content; [json.loads] is not
    called. *)
Theorem stdin_first_line_is_title
    (json_loads : string -> json_outcome) (stdin title content : string) :
  strip stdin = title +:+ String newline content ->
  one_line title ->
  process_stdin json_loads stdin = Returned (detect_from_text title content).
Proof.
  intros Hs Ht. unfold process_stdin. cbv zeta.
  rewrite Hs, (split_first_line title content Ht).
  destruct (split_lines_cons content) as [piece [pieces E]].
  rewrite E. cbn [List.length Nat.leb nth skipn]. rewrite <- E.
  now rewrite join_split.
Qed.

Lemma stdin_first_line_is_title_witness :
  process_stdin (fun _ => JOther)
    ("  Port closure confirmed in Jakarta" +:+ String newline
       ("Line one" +:+ String newline "line two   "))
  = Returned (detect_from_text "Port closure confirmed in Jakarta"
                ("Line one" +:+ String newline "line two")).
Proof.
  apply (stdin_first_line_is_title (fun _ => JOther)
           ("  Port closure confirmed in Jakarta" +:+ String newline
              ("Line one" +:+ String newline "line two   "))
           "Port closure confirmed in Jakarta"
           ("Line one" +:+ String newline "line two")).
  - vm_compute. reflexivity.
  - vm_compute. reflexivity.
Defined.

(** X13.  With a single line on standard input, the stripped line goes to
    [json.loads]: an object is classified from its title and from its
    content or else its description; a line that is no JSON is itself the
    title, with an empty content; a JSON value that is no object ends the
    call with [AttributeError]; and any other exception of [json.loads]
    ends the call too, for only [JSONDecodeError] is caught.  Input of
    spaces only is such a single, empty line.  The closing [return "no"]
    is never reached. *)
Theorem stdin_single_line
    (json_loads : string -> json_outcome) (stdin : string) :
  (one_line (strip stdin) ->
   process_stdin json_loads stdin =
   match json_loads (strip stdin) with
   | JObject data =>
       Returned (detect_from_text (get data "title")
                   (py_or (get data "content") (get data "description")))
   | JOther => AttributeError
   | JSONDecodeError => Returned (detect_from_text (strip stdin) EmptyString)
   | JOtherError => LoadsError
   end) /\
  (all_chars is_space stdin = true ->
   strip stdin = EmptyString /\ one_line (strip stdin)) /\
  (1 <= List.length (split_lines (strip stdin)))%nat.
Proof.
  split; [|split].
  - intros H. unfold process_stdin. cbv zeta.
    rewrite (split_one_line _ H). cbn [List.length Nat.leb Nat.eqb nth].
    reflexivity.
  - intros H. unfold strip. rewrite (lstrip_blank _ H). now split.
  - destruct (split_lines_cons (strip stdin)) as [piece [pieces E]].
    rewrite E. cbn [List.length]. lia.
Qed.

(** A title alone, which is no JSON. *)
Lemma stdin_single_line_witness :
  process_stdin (fun _ => JSONDecodeError) "Earthquake struck Hanoi  "
  = Returned (detect_from_text "Earthquake struck Hanoi" EmptyString) /\
  process_stdin (fun _ => JSONDecodeError) "   " = Returned "no".
Proof.
  split.
  - apply (proj1 (stdin_single_line (fun _ => JSONDecodeError)
                    "Earthquake struck Hanoi  ")).
    vm_compute. reflexivity.
  - vm_compute. reflexivity.
Defined.

(** X14.  A JSON object given alone on standard input gets the verdict
    that the batch gives the same record whenever its content or its
    description is not empty, or its summary is empty; the line mode never
    reads the summary, so a record that has only a summary can get "yes"
    in a batch and "no" on standard input. *)
Theorem stdin_agrees_with_batch_without_summary :
  (forall (json_loads : string -> json_outcome) (stdin now : string)
          (data : gmap string string),
     one_line (strip stdin) ->
     json_loads (strip stdin) = JObject data ->
     get data "content" <> EmptyString \/
     get data "description" <> EmptyString \/
     get data "summary" = EmptyString ->
     exists verdict : string,
       process_stdin json_loads stdin = Returned verdict /\
       process_event now data !! "negative_high_impact" = Some verdict) /\
  (exists data : gmap string string,
     process_event EmptyString data !! "negative_high_impact" = Some "yes" /\
     forall (json_loads : string -> json_outcome) (stdin : string),
       one_line (strip stdin) ->
       json_loads (strip stdin) = JObject data ->
       process_stdin json_loads stdin = Returned "no").
Proof.
  split.
  - intros json_loads stdin now data Hline Hjson Hfields.
    exists (detect_from_text (event_title data) (event_content data)).
    split; [|apply processed_verdict].
    assert (Hc : py_or (get data "content") (get data "description")
                 = event_content data).
    { unfold event_content.
      destruct (get data "content") as [|c s]; [|reflexivity].
      destruct (get data "description") as [|c s]; [|reflexivity].
      destruct Hfields as [H|[H|H]]; try now destruct H.
      now rewrite H. }
    unfold process_stdin. cbv zeta.
    rewrite (split_one_line _ Hline). cbn [List.length Nat.leb Nat.eqb nth].
    rewrite Hjson, Hc. unfold event_title. reflexivity.
  - exists (<["title" := "Jakarta"]>
              (<["summary" := "Earthquake confirmed"]> ∅)).
    split; [vm_compute; reflexivity|].
    intros json_loads stdin Hline Hjson. unfold process_stdin. cbv zeta.
    rewrite (split_one_line _ Hline). cbn [List.length Nat.leb Nat.eqb nth].
    rewrite Hjson. vm_compute. reflexivity.
Qed.

Lemma stdin_agrees_with_batch_without_summary_witness :
  exists verdict : string,
    process_stdin
      (fun _ => JObject (<["title" := "Jakarta"]>
                           (<["description" := "Earthquake confirmed"]> ∅)))
      "{...}" = Returned verdict /\
    process_event "2026-01-01"
      (<["title" := "Jakarta"]> (<["description" := "Earthquake confirmed"]> ∅))
      !! "negative_high_impact" = Some verdict.
Proof.
  apply (proj1 stdin_agrees_with_batch_without_summary
           (fun _ => JObject (<["title" := "Jakarta"]>
                                (<["description" := "Earthquake confirmed"]> ∅)))
           "{...}" "2026-01-01"
           (<["title" := "Jakarta"]> (<["description" := "Earthquake confirmed"]> ∅))).
  - vm_compute. reflexivity.
  - reflexivity.
  - right. left. vm_compute. discriminate.
Defined.

End LineMode.

(** ** The test harness *)

Section Harness.

Import Detector Tests.

Lemma count_results_total (cases : list test_case) (counts : nat * nat) :
  fst (fold_left
         (fun counts test =>
            let result := detect_from_text (test_title test) (test_content test) in
            if String.eqb result (expected test)
            then (S (fst counts), snd counts)
            else (fst counts, S (snd counts)))
         cases counts)
  + snd (fold_left
           (fun counts test =>
              let result := detect_from_text (test_title test) (test_content test) in
              if String.eqb result (expected test)
              then (S (fst counts), snd counts)
              else (fst counts, S (snd counts)))
           cases counts)
  = fst counts + snd counts + List.length cases.
Proof.
  revert counts; induction cases as [|test cases IH]; intros counts;
    cbn [fold_left List.length]; [lia|].
  rewrite IH. cbv zeta. destruct (String.eqb _ _); cbn [fst snd]; lia.
Qed.

(** X15.  The detector meets the ten expectations of its test file:
    [run_tests] counts ten passed cases and no failed one and returns
    true; whatever the cases, passed and failed add up to their number. *)
Theorem run_tests_passes :
  run_tests = true /\
  count_results test_cases = (10, 0) /\
  (forall cases : list test_case,
     fst (count_results cases) + snd (count_results cases) = List.length cases).
Proof.
  split; [vm_compute; reflexivity|]. split; [vm_compute; reflexivity|].
  intros cases. unfold count_results. now rewrite count_results_total.
Qed.

End Harness.
